(** * Critical values notebook and decision-tree regression recipes

    The repository holds two teaching documents:

    - a Jupyter notebook whose three executed code cells call SciPy's
      [ppf] and [cdf] for the Gaussian, Student's t and Chi-squared
      distributions and print the two results;
    - an R Markdown post with four recipes (CART, bagging, random forest,
      Cubist) that fit a model on the [longley] data frame, summarise it,
      predict on the predictors and print the mean squared error.

    Every script is embedded as a computation in a small state-and-error
    monad over a variable store (the Python namespace, the R workspace)
    and a trace of the steps executed.  The external packages (SciPy,
    rpart, ipred, randomForest, Cubist, the [datasets] package) are not
    part of the repository: they enter as a record of functions over
    which every statement is quantified.

    Numbers: Python floats and R doubles are idealised as exact rationals
    ([Q]); a decimal literal denotes its exact value.  NaN and infinities
    are outside the model. *)

From Stdlib Require Import QArith ZArith Lia Lqa.
From stdpp Require Import base gmap strings list.

(** ** Scripts: a store, a trace, and failure *)

(** What can stop a script before its last statement. *)
Inductive error : Type :=
| UnboundName (x : string)      (* Python NameError, R "object not found" *)
| BadOperand (what : string)    (* an operand of the wrong kind *)
| UndefinedColumns              (* R: "undefined columns selected" *)
| NotANumber                    (* R would produce NaN, which [Q] lacks *)
| AttributeError (name : string) (* Python: the object has no such attribute *)
| Unsupported (what : string).  (* behaviour this development does not cover *)

Section Script.
Context {val step : Type}.

(** The variables bound so far and the steps executed so far. *)
Record state : Type := State {
  store : gmap string val;
  trace : list step
}.

Inductive outcome (A : Type) : Type :=
| Ok (a : A) (s : state)
| Raise (e : error).

Definition script (A : Type) : Type := state -> outcome A.
End Script.

Arguments state : clear implicits.
Arguments outcome : clear implicits.
Arguments script : clear implicits.
Arguments Ok {val step A} a s.
Arguments Raise {val step A} e.

Section ScriptOps.
Context {val step : Type}.

Definition unit_script {A} (a : A) : script val step A :=
  fun s => Ok a s.

Definition then_script {A B} (m : script val step A)
    (k : A -> script val step B) : script val step B :=
  fun s => match m s with
           | Ok a s' => k a s'
           | Raise e => Raise e
           end.

Definition raise {A} (e : error) : script val step A :=
  fun _ => Raise e.

(** Reading a variable; an unbound name stops the script. *)
Definition var (x : string) : script val step val :=
  fun s => match store s !! x with
           | Some v => Ok v s
           | None => Raise (UnboundName x)
           end.

(** Binding (or rebinding) a variable. *)
Definition bind_name (x : string) (v : val) : script val step unit :=
  fun s => Ok tt (State (<[x := v]> (store s)) (trace s)).

(** Appending a step to the trace. *)
Definition record (e : step) : script val step unit :=
  fun s => Ok tt (State (store s) (trace s ++ [e])).

(** A fresh interpreter: nothing bound, nothing executed. *)
Definition fresh : state val step := State ∅ [].

(** The steps of a complete run from a fresh interpreter. *)
Definition steps_of {A} (c : script val step A) : option (list step) :=
  match c fresh with
  | Ok _ s => Some (trace s)
  | Raise _ => None
  end.

(** The final value of a variable after a complete run. *)
Definition final_value {A} (c : script val step A) (x : string)
    : option val :=
  match c fresh with
  | Ok _ s => store s !! x
  | Raise _ => None
  end.
End ScriptOps.

Global Instance script_ret {val step} : MRet (script val step) :=
  @unit_script val step.
Global Instance script_bind {val step} : MBind (script val step) :=
  fun A B k m => then_script m k.

(** ** Numbers *)

(** Membership of the closed unit interval, as a test. *)
Definition in_unit_interval (x : Q) : bool :=
  Qle_bool 0 x && Qle_bool x 1.

(** ** The notebook: critical values with SciPy *)

(** The notebook has three executed code cells, one per distribution.
    Its two other code cells, [Pr[X <= critical value] = probability] and
    [probability = 1 - alpha], display formulas: they carry no execution
    count and no output, and are not scripts. *)

Module Notebook.

(** The distribution objects the cells import from [scipy.stats]. *)
Inductive dist : Type :=
| DistNorm
| DistT
| DistChi2.

Definition dist_name (d : dist) : string :=
  match d with
  | DistNorm => "norm"
  | DistT => "t"
  | DistChi2 => "chi2"
  end.

Definition dist_of_name (name : string) : option dist :=
  if String.eqb name "norm" then Some DistNorm
  else if String.eqb name "t" then Some DistT
  else if String.eqb name "chi2" then Some DistChi2
  else None.

(** Python values the cells handle: floats, ints and the imported
    distribution objects. *)
Inductive pyval : Type :=
| PyFloat (x : Q)
| PyInt (n : Z)
| PyDist (d : dist).

(** One executed step of a cell. *)
Inductive pystep : Type :=
| Import (module name : string)
| Assign (x : string) (v : pyval)
| Call (f : string) (args : list pyval) (r : pyval)
| Output (v : pyval).

(** The kind of a step, forgetting the values it carries. *)
Inductive kind : Type :=
| KImport
| KAssign (x : string)
| KCall (f : string)
| KOutput.

Definition kind_of (e : pystep) : kind :=
  match e with
  | Import _ _ => KImport
  | Assign x _ => KAssign x
  | Call f _ _ => KCall f
  | Output _ => KOutput
  end.

(** [scipy.stats], as far as the cells use it.  The functions take the
    Python values they are handed, whatever these are, and return a
    float: what SciPy does with an argument is SciPy's business. *)
Record scipy_stats : Type := ScipyStats {
  norm_ppf : pyval -> Q;
  norm_cdf : pyval -> Q;
  t_ppf : pyval -> pyval -> Q;
  t_cdf : pyval -> pyval -> Q;
  chi2_ppf : pyval -> pyval -> Q;
  chi2_cdf : pyval -> pyval -> Q
}.

Abbreviation py := (script pyval pystep).

(** Expressions. *)
Definition lit (v : pyval) : py pyval := mret v.

(** The arguments of a call, evaluated from left to right. *)
Fixpoint eval_args (args : list (py pyval)) : py (list pyval) :=
  match args with
  | [] => mret []
  | e :: args' =>
      v ← e;
      vs ← eval_args args';
      mret (v :: vs)
  end.

(** Statements. *)

(** [from module import name]: the name is bound, or rebound, to the
    object imported.  Of [scipy.stats] only [norm], [t] and [chi2] are
    covered. *)
Definition import_from (module name : string) : py unit :=
  match dist_of_name name with
  | Some d => bind_name name (PyDist d) ;; record (Import module name)
  | None => raise (Unsupported name)
  end.

Definition assign (x : string) (e : py pyval) : py unit :=
  v ← e;
  bind_name x v ;; record (Assign x v).

Definition print (e : py pyval) : py unit :=
  v ← e;
  record (Output v).

Section Cells.
Variable L : scipy_stats.

(** What a method of a distribution object answers.  Only [ppf] and
    [cdf] are covered, with the arguments the cells give them: one for
    [norm], two for [t] and [chi2]. *)
Definition method_call (d : dist) (method : string) (args : list pyval)
    : option Q :=
  match d, args with
  | DistNorm, [a] =>
      if String.eqb method "ppf" then Some (norm_ppf L a)
      else if String.eqb method "cdf" then Some (norm_cdf L a)
      else None
  | DistT, [a; b] =>
      if String.eqb method "ppf" then Some (t_ppf L a b)
      else if String.eqb method "cdf" then Some (t_cdf L a b)
      else None
  | DistChi2, [a; b] =>
      if String.eqb method "ppf" then Some (chi2_ppf L a b)
      else if String.eqb method "cdf" then Some (chi2_cdf L a b)
      else None
  | _, _ => None
  end.

(** [obj.method(args)]: the name [obj] is read from the namespace, then
    the arguments are evaluated, then the method is called.  A float or
    an int has no such method. *)
Definition call (obj method : string) (args : list (py pyval))
    : py pyval :=
  o ← var obj;
  match o with
  | PyDist d =>
      vs ← eval_args args;
      match method_call d method vs with
      | Some x =>
          let r := PyFloat x in
          record (Call (dist_name d +:+ "." +:+ method) vs r) ;; mret r
      | None => raise (Unsupported method)
      end
  | _ => raise (AttributeError method)
  end.

(** The Gaussian cell, with the literal bound to [p] left open.
<<
  from scipy.stats import norm
  p = 0.95
  value = norm.ppf(p)
  print(value)
  p = norm.cdf(value)
  print(p)
>> *)
Definition gaussian_script (p0 : Q) : py unit :=
  import_from "scipy.stats" "norm" ;;
  assign "p" (lit (PyFloat p0)) ;;
  assign "value" (call "norm" "ppf" [var "p"]) ;;
  print (var "value") ;;
  assign "p" (call "norm" "cdf" [var "value"]) ;;
  print (var "p").

(** The Student's t cell, with both literals left open.
<<
  from scipy.stats import t
  p = 0.95
  df = 10
  value = t.ppf(p, df)
  print(value)
  p = t.cdf(value, df)
  print(p)
>> *)
Definition student_t_script (p0 : Q) (df0 : Z) : py unit :=
  import_from "scipy.stats" "t" ;;
  assign "p" (lit (PyFloat p0)) ;;
  assign "df" (lit (PyInt df0)) ;;
  assign "value" (call "t" "ppf" [var "p"; var "df"]) ;;
  print (var "value") ;;
  assign "p" (call "t" "cdf" [var "value"; var "df"]) ;;
  print (var "p").

(** The Chi-squared cell, with both literals left open.
<<
  from scipy.stats import chi2
  p = 0.95
  df = 10
  value = chi2.ppf(p, df)
  print(value)
  p = chi2.cdf(value, df)
  print(p)
>> *)
Definition chi_squared_script (p0 : Q) (df0 : Z) : py unit :=
  import_from "scipy.stats" "chi2" ;;
  assign "p" (lit (PyFloat p0)) ;;
  assign "df" (lit (PyInt df0)) ;;
  assign "value" (call "chi2" "ppf" [var "p"; var "df"]) ;;
  print (var "value") ;;
  assign "p" (call "chi2" "cdf" [var "value"; var "df"]) ;;
  print (var "p").

(** The cells as the notebook has them: [p = 0.95], [df = 10]. *)
Definition gaussian_cell : py unit := gaussian_script 0.95.
Definition student_t_cell : py unit := student_t_script 0.95 10.
Definition chi_squared_cell : py unit := chi_squared_script 0.95 10.

(** The three cells run one after the other in one kernel, as the
    execution counts 1, 2, 3 of the notebook record. *)
Definition session : py unit :=
  gaussian_cell ;; student_t_cell ;; chi_squared_cell.
End Cells.

(** What a trace shows on standard output. *)
Definition printed (tr : list pystep) : list pyval :=
  omap (fun e => match e with Output v => Some v | _ => None end) tr.

(** The values a variable was bound to, in order. *)
Definition assigned (x : string) (tr : list pystep) : list pyval :=
  omap (fun e => match e with
                 | Assign y v => if String.eqb x y then Some v else None
                 | _ => None
                 end) tr.

(** The library calls of a trace: function, arguments, result. *)
Definition calls (tr : list pystep)
    : list (string * list pyval * pyval) :=
  omap (fun e => match e with
                 | Call f args r => Some (f, args, r)
                 | _ => None
                 end) tr.

Definition is_float (v : pyval) : bool :=
  match v with PyFloat _ => true | PyInt _ | PyDist _ => false end.

(** A probability: a float (or the ints 0 and 1) within [0, 1]. *)
Definition is_probability (v : pyval) : bool :=
  match v with
  | PyFloat x => in_unit_interval x
  | PyInt n => in_unit_interval (inject_Z n)
  | PyDist _ => false
  end.

(** A degrees-of-freedom parameter: a positive int. *)
Definition is_positive_int (v : pyval) : bool :=
  match v with
  | PyFloat _ | PyDist _ => false
  | PyInt n => (0 <? n)%Z
  end.

(** The [stdout] text the notebook stores with each executed cell, one
    number per line. *)
Definition gaussian_recorded : list Q :=
  [1.6448536269514722; 0.95]%Q.
Definition student_t_recorded : list Q :=
  [1.8124611228107335; 0.949999999999923]%Q.
Definition chi_squared_recorded : list Q :=
  [18.307038053275143; 0.95]%Q.

(** The library replaying the recorded run: each function answers with
    the number the notebook recorded for its one call. *)
Definition recorded_run : scipy_stats := {|
  norm_ppf := fun _ => 1.6448536269514722%Q;
  norm_cdf := fun _ => 0.95%Q;
  t_ppf := fun _ _ => 1.8124611228107335%Q;
  t_cdf := fun _ _ => 0.949999999999923%Q;
  chi2_ppf := fun _ _ => 18.307038053275143%Q;
  chi2_cdf := fun _ _ => 0.95%Q
|}.

(** The steps each script executes, in order, as a function of what the
    library answers. *)
Definition gaussian_steps (L : scipy_stats) (p0 : Q) : list pystep :=
  let value := PyFloat (norm_ppf L (PyFloat p0)) in
  let p := PyFloat (norm_cdf L value) in
  [ Import "scipy.stats" "norm";
    Assign "p" (PyFloat p0);
    Call "norm.ppf" [PyFloat p0] value;
    Assign "value" value;
    Output value;
    Call "norm.cdf" [value] p;
    Assign "p" p;
    Output p ].

Definition student_t_steps (L : scipy_stats) (p0 : Q) (df0 : Z)
    : list pystep :=
  let value := PyFloat (t_ppf L (PyFloat p0) (PyInt df0)) in
  let p := PyFloat (t_cdf L value (PyInt df0)) in
  [ Import "scipy.stats" "t";
    Assign "p" (PyFloat p0);
    Assign "df" (PyInt df0);
    Call "t.ppf" [PyFloat p0; PyInt df0] value;
    Assign "value" value;
    Output value;
    Call "t.cdf" [value; PyInt df0] p;
    Assign "p" p;
    Output p ].

Definition chi_squared_steps (L : scipy_stats) (p0 : Q) (df0 : Z)
    : list pystep :=
  let value := PyFloat (chi2_ppf L (PyFloat p0) (PyInt df0)) in
  let p := PyFloat (chi2_cdf L value (PyInt df0)) in
  [ Import "scipy.stats" "chi2";
    Assign "p" (PyFloat p0);
    Assign "df" (PyInt df0);
    Call "chi2.ppf" [PyFloat p0; PyInt df0] value;
    Assign "value" value;
    Output value;
    Call "chi2.cdf" [value; PyInt df0] p;
    Assign "p" p;
    Output p ].

(** The probabilities a run uses: every value bound to [p] and every
    first argument handed to a [ppf]. *)
Definition is_ppf (f : string) : bool :=
  String.eqb f "norm.ppf" || String.eqb f "t.ppf" || String.eqb f "chi2.ppf".

Definition probabilities (tr : list pystep) : list pyval :=
  omap (fun e => match e with
                 | Assign x v => if String.eqb x "p" then Some v else None
                 | Call f (a :: _) _ => if is_ppf f then Some a else None
                 | _ => None
                 end) tr.

(** The degrees of freedom a run uses: every value bound to [df] and
    every second argument handed to the library. *)
Definition degrees_of_freedom (tr : list pystep) : list pyval :=
  omap (fun e => match e with
                 | Assign x v => if String.eqb x "df" then Some v else None
                 | Call _ [_; d] _ => Some d
                 | _ => None
                 end) tr.

(** The three cumulative functions answer within [0, 1]. *)
Definition cdf_within_unit (L : scipy_stats) : Prop :=
  (forall x, in_unit_interval (norm_cdf L x) = true)
  /\ (forall x d, in_unit_interval (t_cdf L x d) = true)
  /\ (forall x d, in_unit_interval (chi2_cdf L x d) = true).

(** Standard output holds one or two floats and nothing else. *)
Definition only_numbers_printed (tr : list pystep) : bool :=
  forallb is_float (printed tr)
  && (1 <=? length (printed tr))%nat && (length (printed tr) <=? 2)%nat.

(** A script that keeps within the domain: every probability it uses
    lies in [0, 1] and every degrees-of-freedom parameter it uses is a
    positive int. *)
Definition within_domain (c : py unit) : Prop :=
  exists tr,
    steps_of c = Some tr
    /\ forallb is_probability (probabilities tr) = true
    /\ forallb is_positive_int (degrees_of_freedom tr) = true.

(** The kinds of the steps of a complete run. *)
Definition kinds_of (c : py unit) : option (list kind) :=
  map kind_of <$> steps_of c.

(** The step kinds of the Gaussian cell and of a cell for a distribution
    with degrees of freedom, in the order of the source lines. *)
Definition gaussian_kinds : list kind :=
  [ KImport; KAssign "p";
    KCall "norm.ppf"; KAssign "value"; KOutput;
    KCall "norm.cdf"; KAssign "p"; KOutput ].

Definition df_cell_kinds (dist : string) : list kind :=
  [ KImport; KAssign "p"; KAssign "df";
    KCall (dist +:+ ".ppf"); KAssign "value"; KOutput;
    KCall (dist +:+ ".cdf"); KAssign "p"; KOutput ].

(** A script whose standard output is one or two floats, nothing else. *)
Definition prints_only_numbers (c : py unit) : Prop :=
  exists tr, steps_of c = Some tr /\ only_numbers_printed tr = true.

(** *** The formula cell and sessions *)

(** [e1 - e2].  Python's binary minus is taken as given: [minus a b]
    is what [a - b] evaluates to, rounding included, or [None] where
    Python raises a type error.  The operands are evaluated first, from
    left to right. *)
Definition sub (minus : pyval -> pyval -> option pyval)
    (e1 e2 : py pyval) : py pyval :=
  a ← e1;
  b ← e2;
  match minus a b with
  | Some r => mret r
  | None => raise (BadOperand "-")
  end.

(** The second formula cell, were it run:
<<
  probability = 1 - alpha
>> *)
Definition probability_cell (minus : pyval -> pyval -> option pyval)
    : py unit :=
  assign "probability" (sub minus (lit (PyInt 1)) (var "alpha")).

(** The executed cells, by name, and a session: cells run one after the
    other in one kernel, in any order and any number of times. *)
Inductive cell : Type :=
| Gaussian
| StudentT
| ChiSquared.

Definition run_cell (L : scipy_stats) (c : cell) : py unit :=
  match c with
  | Gaussian => gaussian_cell L
  | StudentT => student_t_cell L
  | ChiSquared => chi_squared_cell L
  end.

Fixpoint run_cells (L : scipy_stats) (cs : list cell) : py unit :=
  match cs with
  | [] => mret tt
  | c :: cs' => run_cell L c ;; run_cells L cs'
  end.

Definition cell_steps (L : scipy_stats) (c : cell) : list pystep :=
  match c with
  | Gaussian => gaussian_steps L 0.95
  | StudentT => student_t_steps L 0.95 10
  | ChiSquared => chi_squared_steps L 0.95 10
  end.

(** The names the executed cells bind: the three imported objects and
    the three variables. *)
Definition cell_names : list string :=
  ["norm"; "t"; "chi2"; "p"; "value"; "df"].

End Notebook.


(** ** The recipes: decision-tree regression in R *)

Module Recipes.

(** *** Numeric vectors *)

(** Element [i] of a vector read cyclically, as R recycles operands. *)
Definition cyclic (v : list Q) (i : nat) : Q :=
  nth (i mod length v) v 0%Q.

(** R's element-wise arithmetic on two numeric vectors: the result is as
    long as the longer operand, the shorter one is recycled, and an empty
    operand gives an empty result. *)
Definition arith (op : Q -> Q -> Q) (a b : list Q) : list Q :=
  match a, b with
  | [], _ | _, [] => []
  | _, _ => map (fun i => op (cyclic a i) (cyclic b i))
                (seq 0 (Nat.max (length a) (length b)))
  end.

(** [a - b] *)
Definition r_sub (a b : list Q) : list Q := arith Qminus a b.

(** [a ^ n] for a whole-number exponent, the scalar recycled. *)
Definition r_pow (a : list Q) (n : Z) : list Q :=
  map (fun x => (x ^ n)%Q) a.

Definition total (v : list Q) : Q := fold_right Qplus 0%Q v.

(** [mean(v)]; R gives NaN on an empty vector, here [None]. *)
Definition r_mean (v : list Q) : option Q :=
  match v with
  | [] => None
  | _ => Some (total v / inject_Z (Z.of_nat (length v)))%Q
  end.

(** The accuracy line of every recipe:
    [mean((longley$Employed - predictions)^2)]. *)
Definition mse (Employed predictions : list Q) : option Q :=
  r_mean (r_pow (r_sub Employed predictions) 2).

(** *** Data frames *)

(** A data frame: named columns, in order. *)
Definition data_frame : Type := list (string * list Q).

Definition nrow (d : data_frame) : nat :=
  match d with
  | [] => 0
  | c :: _ => length (snd c)
  end.

(** [d$name]: the first column of that name; [NULL], which arithmetic
    treats as an empty vector, when there is none. *)
Fixpoint dollar (d : data_frame) (name : string) : list Q :=
  match d with
  | [] => []
  | (n, v) :: d' => if String.eqb n name then v else dollar d' name
  end.

(** [a:b] *)
Definition colon (a b : nat) : list nat := seq a (S b - a).

(** [d[, idx]] for positive column positions, counted from 1; a
    position past the last column is an error. *)
Definition columns (d : data_frame) (idx : list nat) : option data_frame :=
  mapM (fun i => match i with
                 | O => None
                 | S j => d !! j
                 end) idx.

(** [d[, i]] for one position: the column as a vector. *)
Definition column (d : data_frame) (i : nat) : option (list Q) :=
  match i with
  | O => None
  | S j => snd <$> d !! j
  end.

(** Whether a table has a column of that name. *)
Definition has_column (d : data_frame) (name : string) : bool :=
  existsb (fun c => String.eqb (fst c) name) d.

(** A model formula [response ~ .]: every other column predicts. *)
Inductive formula : Type :=
| TildeDot (response : string).

Definition response_of (f : formula) (d : data_frame) : list Q :=
  match f with TildeDot y => dollar d y end.

Definition predictors_of (f : formula) (d : data_frame) : data_frame :=
  match f with
  | TildeDot y => List.filter (fun c => negb (String.eqb (fst c) y)) d
  end.

(** [rpart.control(minsplit = ...)] *)
Record rpart_control : Type := RpartControl { minsplit : Z }.

(** *** The packages *)

(** What the recipes take from outside the repository: the [longley]
    table of the [datasets] package and the fitting, summarising and
    predicting functions of rpart, ipred, randomForest and Cubist. *)
Record packages : Type := Packages {
  model : Type;
  fit_summary : Type;
  longley : data_frame;
  rpart : formula -> data_frame -> rpart_control -> model;
  bagging : formula -> data_frame -> rpart_control -> model;
  randomForest : formula -> data_frame -> model;
  cubist : data_frame -> list Q -> model;
  summary : model -> fit_summary;
  predict : model -> data_frame -> list Q
}.

Section Workspace.
Variable P : packages.

(** R values the recipes handle. *)
Inductive rval : Type :=
| RFrame (d : data_frame)
| RNum (v : list Q)
| RModel (m : model P)
| RSummary (s : fit_summary P).

(** A call into a package, with its arguments and its result. *)
Inductive rcall : Type :=
| CallRpart (f : formula) (d : data_frame) (c : rpart_control) (m : model P)
| CallBagging (f : formula) (d : data_frame) (c : rpart_control) (m : model P)
| CallRandomForest (f : formula) (d : data_frame) (m : model P)
| CallCubist (x : data_frame) (y : list Q) (m : model P)
| CallSummary (m : model P) (s : fit_summary P)
| CallPredict (m : model P) (newdata : data_frame) (r : list Q).

(** One executed step of a recipe. *)
Inductive rstep : Type :=
| Library (package : string)
| Data (name : string)
| Assign (x : string) (v : rval)
| Call (c : rcall)
| Show (v : rval).

Abbreviation r := (script rval rstep).

Definition as_frame (v : rval) : r data_frame :=
  match v with
  | RFrame d => mret d
  | _ => raise (BadOperand "data frame")
  end.

Definition as_num (v : rval) : r (list Q) :=
  match v with
  | RNum x => mret x
  | _ => raise (BadOperand "numeric")
  end.

Definition as_model (v : rval) : r (model P) :=
  match v with
  | RModel m => mret m
  | _ => raise (BadOperand "model")
  end.

(** Expressions. *)
Definition cols (e : r rval) (idx : list nat) : r rval :=
  d ← e ≫= as_frame;
  match columns d idx with
  | Some d' => mret (RFrame d')
  | None => raise UndefinedColumns
  end.

Definition col (e : r rval) (i : nat) : r rval :=
  d ← e ≫= as_frame;
  match column d i with
  | Some v => mret (RNum v)
  | None => raise UndefinedColumns
  end.

Definition field (e : r rval) (name : string) : r rval :=
  d ← e ≫= as_frame;
  mret (RNum (dollar d name)).

Definition minus (e1 e2 : r rval) : r rval :=
  a ← e1 ≫= as_num;
  b ← e2 ≫= as_num;
  mret (RNum (r_sub a b)).

Definition power (e : r rval) (n : Z) : r rval :=
  a ← e ≫= as_num;
  mret (RNum (r_pow a n)).

Definition mean (e : r rval) : r rval :=
  a ← e ≫= as_num;
  match r_mean a with
  | Some m => mret (RNum [m])
  | None => raise NotANumber
  end.

(** The variables of a formula are looked up in the data a fitting
    function is given and, failing that, in the workspace; one found in
    neither stops the fit ("object not found").  A fit on a response
    found only in the workspace is not covered. *)
Definition model_frame (f : formula) (d : data_frame) : r unit :=
  match f with
  | TildeDot y =>
      if has_column d y then mret tt
      else (_ ← var y; raise (Unsupported "response outside the data"))
  end.

Definition call_rpart (f : formula) (e : r rval) (c : rpart_control)
    : r rval :=
  d ← e ≫= as_frame;
  model_frame f d ;;
  let m := rpart P f d c in
  record (Call (CallRpart f d c m)) ;; mret (RModel m).

Definition call_bagging (f : formula) (e : r rval) (c : rpart_control)
    : r rval :=
  d ← e ≫= as_frame;
  model_frame f d ;;
  let m := bagging P f d c in
  record (Call (CallBagging f d c m)) ;; mret (RModel m).

Definition call_randomForest (f : formula) (e : r rval) : r rval :=
  d ← e ≫= as_frame;
  model_frame f d ;;
  let m := randomForest P f d in
  record (Call (CallRandomForest f d m)) ;; mret (RModel m).

Definition call_cubist (ex ey : r rval) : r rval :=
  x ← ex ≫= as_frame;
  y ← ey ≫= as_num;
  let m := cubist P x y in
  record (Call (CallCubist x y m)) ;; mret (RModel m).

Definition call_summary (e : r rval) : r rval :=
  m ← e ≫= as_model;
  let s := summary P m in
  record (Call (CallSummary m s)) ;; mret (RSummary s).

Definition call_predict (e enew : r rval) : r rval :=
  m ← e ≫= as_model;
  d ← enew ≫= as_frame;
  let v := predict P m d in
  record (Call (CallPredict m d v)) ;; mret (RNum v).

(** Statements. *)
Definition library (package : string) : r unit :=
  record (Library package).

(** [data(name)]: the only data set the recipes load is [longley]. *)
Definition data (name : string) : r unit :=
  if String.eqb name "longley"
  then bind_name name (RFrame (longley P)) ;; record (Data name)
  else raise (UnboundName name).

Definition assign (x : string) (e : r rval) : r unit :=
  v ← e;
  bind_name x v ;; record (Assign x v).

(** An expression alone on a line: R evaluates it and shows the value. *)
Definition toplevel (e : r rval) : r unit :=
  v ← e;
  record (Show v).

Definition print (e : r rval) : r unit :=
  v ← e;
  record (Show v).

(** Classification and Regression Trees.
<<
  library(rpart)
  data(longley)
  fit <- rpart(Employed~., data=longley, control=rpart.control(minsplit=5))
  summary(fit)
  predictions <- predict(fit, longley[,1:6])
  mse <- mean((longley$Employed - predictions)^2)
  print(mse)
>> *)
Definition cart_recipe : r unit :=
  library "rpart" ;;
  data "longley" ;;
  assign "fit"
    (call_rpart (TildeDot "Employed") (var "longley") (RpartControl 5)) ;;
  toplevel (call_summary (var "fit")) ;;
  assign "predictions"
    (call_predict (var "fit") (cols (var "longley") (colon 1 6))) ;;
  assign "mse"
    (mean (power (minus (field (var "longley") "Employed")
                        (var "predictions")) 2)) ;;
  print (var "mse").

(** Bagging CART.
<<
  library(ipred)
  data(longley)
  fit <- bagging(Employed~., data=longley, control=rpart.control(minsplit=5))
  summary(fit)
  predictions <- predict(fit, longley[,1:6])
  mse <- mean((longley$Employed - predictions)^2)
  print(mse)
>> *)
Definition bagging_recipe : r unit :=
  library "ipred" ;;
  data "longley" ;;
  assign "fit"
    (call_bagging (TildeDot "Employed") (var "longley") (RpartControl 5)) ;;
  toplevel (call_summary (var "fit")) ;;
  assign "predictions"
    (call_predict (var "fit") (cols (var "longley") (colon 1 6))) ;;
  assign "mse"
    (mean (power (minus (field (var "longley") "Employed")
                        (var "predictions")) 2)) ;;
  print (var "mse").

(** Random Forest.
<<
  library(randomForest)
  data(longley)
  fit <- randomForest(Employed~., data=longley)
  summary(fit)
  predictions <- predict(fit, longley[,1:6])
  mse <- mean((longley$Employed - predictions)^2)
  print(mse)
>> *)
Definition random_forest_recipe : r unit :=
  library "randomForest" ;;
  data "longley" ;;
  assign "fit"
    (call_randomForest (TildeDot "Employed") (var "longley")) ;;
  toplevel (call_summary (var "fit")) ;;
  assign "predictions"
    (call_predict (var "fit") (cols (var "longley") (colon 1 6))) ;;
  assign "mse"
    (mean (power (minus (field (var "longley") "Employed")
                        (var "predictions")) 2)) ;;
  print (var "mse").

(** Cubist.
<<
  library(Cubist)
  data(longley)
  fit <- cubist(longley[,1:6], longley[,7])
  summary(fit)
  predictions <- predict(fit, longley[,1:6])
  mse <- mean((longley$Employed - predictions)^2)
  print(mse)
>> *)
Definition cubist_recipe : r unit :=
  library "Cubist" ;;
  data "longley" ;;
  assign "fit"
    (call_cubist (cols (var "longley") (colon 1 6))
                 (col (var "longley") 7)) ;;
  toplevel (call_summary (var "fit")) ;;
  assign "predictions"
    (call_predict (var "fit") (cols (var "longley") (colon 1 6))) ;;
  assign "mse"
    (mean (power (minus (field (var "longley") "Employed")
                        (var "predictions")) 2)) ;;
  print (var "mse").

(** What a trace shows on the console. *)
Definition shown (tr : list rstep) : list rval :=
  omap (fun e => match e with Show v => Some v | _ => None end) tr.

(** The package calls of a trace. *)
Definition calls (tr : list rstep) : list rcall :=
  omap (fun e => match e with Call c => Some c | _ => None end) tr.

(** A shown value that is one number. *)
Definition is_number (v : rval) : bool :=
  match v with
  | RNum [_] => true
  | _ => false
  end.

End Workspace.

Arguments RFrame {P} d.
Arguments RNum {P} v.
Arguments RModel {P} m.
Arguments RSummary {P} s.
Arguments CallRpart {P} f d c m.
Arguments CallBagging {P} f d c m.
Arguments CallRandomForest {P} f d m.
Arguments CallCubist {P} x y m.
Arguments CallSummary {P} m s.
Arguments CallPredict {P} m newdata r.
Arguments Library {P} package.
Arguments Data {P} name.
Arguments Assign {P} x v.
Arguments Call {P} c.
Arguments Show {P} v.
Arguments shown {P} tr.
Arguments calls {P} tr.
Arguments is_number {P} v.

(** The kind of a step, forgetting the values it carries. *)
Inductive kind : Type :=
| KLibrary (package : string)
| KData (name : string)
| KAssign (x : string)
| KFit (f : string)
| KSummary
| KPredict
| KShow.

Definition kind_of {P} (e : rstep P) : kind :=
  match e with
  | Library p => KLibrary p
  | Data n => KData n
  | Assign x _ => KAssign x
  | Call (CallRpart _ _ _ _) => KFit "rpart"
  | Call (CallBagging _ _ _ _) => KFit "bagging"
  | Call (CallRandomForest _ _ _) => KFit "randomForest"
  | Call (CallCubist _ _ _) => KFit "cubist"
  | Call (CallSummary _ _) => KSummary
  | Call (CallPredict _ _ _) => KPredict
  | Show _ => KShow
  end.

(** The shape of the [longley] table the recipes rely on: 7 columns of
    16 rows, the seventh, and only the seventh, named [Employed]. *)
Definition longley_shaped (d : data_frame) : bool :=
  (length d =? 7)%nat
  && forallb (fun c => (length (snd c) =? 16)%nat) d
  && forallb (fun c => negb (String.eqb (fst c) "Employed")) (take 6 d)
  && match d !! 6%nat with
     | Some c => String.eqb (fst c) "Employed"
     | None => false
     end.

(** [predict] answers with one prediction per row of the new data. *)
Definition predicts_per_row (P : packages) : Prop :=
  forall (m : model P) (d : data_frame),
    length (predict P m d) = nrow d.

(** The steps a recipe executes, in order: [fit_call] is its call of the
    fitting function, [m] the model that call returned, [X] the result
    of [longley[,1:6]] and [v] the mean squared error. *)
Definition recipe_steps {P} (package : string) (fit_call : rcall P)
    (m : model P) (X : data_frame) (v : Q) : list (rstep P) :=
  let s := summary P m in
  let predictions := predict P m X in
  [ Library package;
    Data "longley";
    Call fit_call;
    Assign "fit" (RModel m);
    Call (CallSummary m s);
    Show (RSummary s);
    Call (CallPredict m X predictions);
    Assign "predictions" (RNum predictions);
    Assign "mse" (RNum [v]);
    Show (RNum [v]) ].

(** The four fitting calls as the recipes write them. *)
Definition cart_fit (P : packages) : rcall P :=
  CallRpart (TildeDot "Employed") (longley P) (RpartControl 5)
    (rpart P (TildeDot "Employed") (longley P) (RpartControl 5)).

Definition bagging_fit (P : packages) : rcall P :=
  CallBagging (TildeDot "Employed") (longley P) (RpartControl 5)
    (bagging P (TildeDot "Employed") (longley P) (RpartControl 5)).

Definition random_forest_fit (P : packages) : rcall P :=
  CallRandomForest (TildeDot "Employed") (longley P)
    (randomForest P (TildeDot "Employed") (longley P)).

Definition cubist_fit (P : packages) (X : data_frame) (y : list Q)
    : rcall P :=
  CallCubist X y (cubist P X y).

(** The model a fitting call returned. *)
Definition fitted {P} (c : rcall P) : option (model P) :=
  match c with
  | CallRpart _ _ _ m | CallBagging _ _ _ m
  | CallRandomForest _ _ m | CallCubist _ _ m => Some m
  | _ => None
  end.

(** The predictors and the target a fitting call trains on. *)
Definition training_data {P} (c : rcall P)
    : option (data_frame * list Q) :=
  match c with
  | CallRpart f d _ _ | CallBagging f d _ _ | CallRandomForest f d _ =>
      Some (predictors_of f d, response_of f d)
  | CallCubist x y _ => Some (x, y)
  | _ => None
  end.

(** The console holds one or two numbers and nothing else. *)
Definition only_numbers_shown {P} (tr : list (rstep P)) : bool :=
  forallb is_number (shown tr)
  && (1 <=? length (shown tr))%nat && (length (shown tr) <=? 2)%nat.

(** The kinds of the steps of a complete run. *)
Definition kinds_of {P} (c : script (rval P) (rstep P) unit)
    : option (list kind) :=
  map kind_of <$> steps_of c.

(** The step kinds of a recipe, in the order of the source lines. *)
Definition recipe_kinds (package fit : string) : list kind :=
  [ KLibrary package; KData "longley";
    KFit fit; KAssign "fit";
    KSummary; KShow;
    KPredict; KAssign "predictions";
    KAssign "mse"; KShow ].

(** The package calls of a recipe: fit, summarise the fit, predict with
    the fit on [X]. *)
Definition recipe_calls {P} (fit_call : rcall P) (m : model P)
    (X : data_frame) : list (rcall P) :=
  [ fit_call;
    CallSummary m (summary P m);
    CallPredict m X (predict P m X) ].

(** A recipe whose package calls are a fitting call followed by a
    prediction with the fitted model, and no other. *)
Definition fits_then_predicts {P} (c : script (rval P) (rstep P) unit)
    : Prop :=
  exists tr fit_call m X,
    steps_of c = Some tr
    /\ fitted fit_call = Some m
    /\ calls tr = [fit_call; CallPredict m X (predict P m X)].

(** A recipe whose console output is one or two numbers, nothing else. *)
Definition shows_only_numbers {P} (c : script (rval P) (rstep P) unit)
    : Prop :=
  exists tr, steps_of c = Some tr /\ only_numbers_shown tr = true.

(** A recipe that measures its error in sample: its fitting call
    [fit_call] trains on the first six columns of [longley] as predictors
    and on [Employed] as target, its one prediction call is made with the
    fitted model on those same six columns, and the number it shows last
    is the mean squared error of these predictions against [Employed]. *)
Definition in_sample {P} (c : script (rval P) (rstep P) unit)
    (fit_call : rcall P) : Prop :=
  let X := take 6 (longley P) in
  let y := dollar (longley P) "Employed" in
  exists tr m v,
    steps_of c = Some tr
    /\ fitted fit_call = Some m
    /\ training_data fit_call = Some (X, y)
    /\ calls tr = recipe_calls fit_call m X
    /\ mse y (predict P m X) = Some v
    /\ shown tr = [RSummary (summary P m); RNum [v]].

(** The [longley] table as the [datasets] package of R ships it. *)
Definition longley_table : data_frame :=
  [ ("GNP.deflator",
     [83.0; 88.5; 88.2; 89.5; 96.2; 98.1; 99.0; 100.0;
      101.2; 104.6; 108.4; 110.8; 112.6; 114.2; 115.7; 116.9]%Q);
    ("GNP",
     [234.289; 259.426; 258.054; 284.599; 328.975; 346.999; 365.385;
      363.112; 397.469; 419.180; 442.769; 444.546; 482.704; 502.601;
      518.173; 554.894]%Q);
    ("Unemployed",
     [235.6; 232.5; 368.2; 335.1; 209.9; 193.2; 187.0; 357.8;
      290.4; 282.2; 293.6; 468.1; 381.3; 393.1; 480.6; 400.7]%Q);
    ("Armed.Forces",
     [159.0; 145.6; 161.6; 165.0; 309.9; 359.4; 354.7; 335.0;
      304.8; 285.7; 279.8; 263.7; 255.2; 251.4; 257.2; 282.7]%Q);
    ("Population",
     [107.608; 108.632; 109.773; 110.929; 112.075; 113.270; 115.094;
      116.219; 117.388; 118.734; 120.445; 121.950; 123.366; 125.368;
      127.852; 130.081]%Q);
    ("Year",
     [1947; 1948; 1949; 1950; 1951; 1952; 1953; 1954;
      1955; 1956; 1957; 1958; 1959; 1960; 1961; 1962]%Q);
    ("Employed",
     [60.323; 61.122; 60.171; 61.187; 63.221; 63.639; 64.989; 63.761;
      66.019; 67.857; 68.169; 66.513; 68.655; 69.564; 69.331; 70.551]%Q)
  ].

(** A stand-in for the four packages, to run the recipes on: the fitted
    model is the mean of the response, predicted for every row, and its
    summary is that mean. *)
Definition mean_or_zero (v : list Q) : Q := default 0%Q (r_mean v).

Definition mean_model : packages := {|
  model := Q;
  fit_summary := Q;
  longley := longley_table;
  rpart := fun f d _ => mean_or_zero (response_of f d);
  bagging := fun f d _ => mean_or_zero (response_of f d);
  randomForest := fun f d => mean_or_zero (response_of f d);
  cubist := fun _ y => mean_or_zero y;
  summary := fun m => m;
  predict := fun m d => replicate (nrow d) m
|}.

(** *** The recipes by name *)

(** The recipes, by name. *)
Inductive recipe : Type :=
| Cart
| Bagging
| RandomForest
| Cubist.

Definition run_recipe (P : packages) (rc : recipe)
    : script (rval P) (rstep P) unit :=
  match rc with
  | Cart => cart_recipe P
  | Bagging => bagging_recipe P
  | RandomForest => random_forest_recipe P
  | Cubist => cubist_recipe P
  end.

Definition package_of (rc : recipe) : string :=
  match rc with
  | Cart => "rpart"
  | Bagging => "ipred"
  | RandomForest => "randomForest"
  | Cubist => "Cubist"
  end.

Definition fit_of (P : packages) (rc : recipe) : rcall P :=
  match rc with
  | Cart => cart_fit P
  | Bagging => bagging_fit P
  | RandomForest => random_forest_fit P
  | Cubist => cubist_fit P (take 6 (longley P))
                (dollar (longley P) "Employed")
  end.

Definition model_of (P : packages) (rc : recipe) : model P :=
  match rc with
  | Cart => rpart P (TildeDot "Employed") (longley P) (RpartControl 5)
  | Bagging => bagging P (TildeDot "Employed") (longley P) (RpartControl 5)
  | RandomForest => randomForest P (TildeDot "Employed") (longley P)
  | Cubist => cubist P (take 6 (longley P)) (dollar (longley P) "Employed")
  end.

(** The error a recipe prints; 0 stands in where R would print NaN. *)
Definition training_mse (P : packages) (rc : recipe) : Q :=
  default 0%Q
    (mse (dollar (longley P) "Employed")
         (predict P (model_of P rc) (take 6 (longley P)))).

Definition chunk_steps (P : packages) (rc : recipe) : list (rstep P) :=
  recipe_steps (package_of rc) (fit_of P rc) (model_of P rc)
    (take 6 (longley P)) (training_mse P rc).

(** The packages [P] with a [predict] that answers with one number, the
    model's prediction for the first row, whatever the number of rows. *)
Definition with_single_prediction (P : packages) : packages := {|
  model := model P;
  fit_summary := fit_summary P;
  longley := longley P;
  rpart := rpart P;
  bagging := bagging P;
  randomForest := randomForest P;
  cubist := cubist P;
  summary := summary P;
  predict := fun m d => take 1 (predict P m d)
|}.

End Recipes.


(** * Properties *)

(** ** Numbers *)

Lemma in_unit_interval_spec (x : Q) :
  in_unit_interval x = true <-> (0 <= x <= 1)%Q.
Proof.
  unfold in_unit_interval.
  rewrite andb_true_iff, !Qle_bool_iff. tauto.
Qed.

(** ** The notebook *)

Section NotebookRuns.
Import Notebook.
Variable L : scipy_stats.

(** Each script runs to its last statement and executes the expected
    steps, whatever the literals and whatever the library answers. *)
Lemma gaussian_script_steps (p0 : Q) :
  steps_of (gaussian_script L p0) = Some (gaussian_steps L p0).
Proof. reflexivity. Qed.

Lemma student_t_script_steps (p0 : Q) (df0 : Z) :
  steps_of (student_t_script L p0 df0) = Some (student_t_steps L p0 df0).
Proof. reflexivity. Qed.

Lemma chi_squared_script_steps (p0 : Q) (df0 : Z) :
  steps_of (chi_squared_script L p0 df0)
  = Some (chi_squared_steps L p0 df0).
Proof. reflexivity. Qed.

(** Run in one kernel, one after the other, the cells execute the steps
    they execute alone: each cell binds every name it reads. *)
Lemma session_steps :
  steps_of (session L)
  = Some (gaussian_steps L 0.95 ++ student_t_steps L 0.95 10
          ++ chi_squared_steps L 0.95 10).
Proof. reflexivity. Qed.

(** After a cell, [p] holds the confirmation probability, not 0.95. *)
Lemma gaussian_cell_final_p :
  final_value (gaussian_cell L) "p"
  = Some (PyFloat (norm_cdf L (PyFloat (norm_ppf L (PyFloat 0.95))))).
Proof. vm_compute. reflexivity. Qed.

(** [p] is bound twice: to the literal, then to what [cdf] returned. *)
Lemma gaussian_cell_binds_p :
  assigned "p" <$> steps_of (gaussian_cell L)
  = Some [ PyFloat 0.95;
           PyFloat (norm_cdf L (PyFloat (norm_ppf L (PyFloat 0.95)))) ].
Proof. reflexivity. Qed.

(** The replaying library makes the cells print what the notebook
    records. *)
Lemma recorded_run_prints_recorded :
  printed <$> steps_of (gaussian_cell recorded_run)
  = Some (PyFloat <$> gaussian_recorded)
  /\ printed <$> steps_of (student_t_cell recorded_run)
     = Some (PyFloat <$> student_t_recorded)
  /\ printed <$> steps_of (chi_squared_cell recorded_run)
     = Some (PyFloat <$> chi_squared_recorded).
Proof. repeat split. Qed.

End NotebookRuns.

(** ** Numeric vectors *)

Section Vectors.
Import Recipes.

Lemma cyclic_lookup (v : list Q) (i : nat) :
  (i < length v)%nat -> v !! i = Some (cyclic v i).
Proof.
  intros Hi. unfold cyclic.
  rewrite Nat.mod_small by done.
  destruct (lookup_lt_is_Some_2 v i Hi) as [x Hx].
  by rewrite nth_lookup, Hx.
Qed.

(** On operands of one length nothing is recycled: the operation is
    applied position by position. *)
Lemma arith_same_length (op : Q -> Q -> Q) (a b : list Q) :
  length a = length b -> arith op a b = zip_with op a b.
Proof.
  intros Hlen. unfold arith.
  destruct a as [|x a], b as [|y b]; try done.
  rewrite <- Hlen, Nat.max_id.
  apply list_eq. intros i.
  rewrite list_lookup_fmap, lookup_zip_with.
  destruct (decide (i < length (x :: a))%nat) as [Hi|Hi].
  - rewrite lookup_seq_lt by done. simpl "<$>".
    rewrite (cyclic_lookup (x :: a) i) by done.
    rewrite (cyclic_lookup (y :: b) i) by (by rewrite <- Hlen).
    done.
  - rewrite lookup_seq_ge by lia.
    rewrite (lookup_ge_None_2 (x :: a)) by lia. done.
Qed.

Lemma square_nonneg (x : Q) : (0 <= x ^ 2)%Q.
Proof. change (x ^ 2)%Q with (x * x)%Q. nra. Qed.

Lemma square_zero (x : Q) : (x ^ 2 == 0)%Q <-> (x == 0)%Q.
Proof.
  split.
  - intros H. change (x ^ 2)%Q with (x * x)%Q in H.
    by destruct (Qmult_integral _ _ H).
  - intros ->. reflexivity.
Qed.

Lemma total_squares_nonneg (v : list Q) : (0 <= total (r_pow v 2))%Q.
Proof.
  induction v as [|x v IH]; simpl.
  - apply Qle_refl.
  - pose proof (square_nonneg x). fold (r_pow v 2). fold (total (r_pow v 2)).
    lra.
Qed.

Lemma total_squares_zero (v : list Q) :
  (total (r_pow v 2) == 0)%Q <-> Forall (fun x => (x == 0)%Q) v.
Proof.
  induction v as [|x v IH].
  - split; [constructor | reflexivity].
  - change (total (r_pow (x :: v) 2))
      with (x ^ 2 + total (r_pow v 2))%Q.
    pose proof (square_nonneg x) as Hx.
    pose proof (total_squares_nonneg v) as Hv.
    pose proof (square_zero x) as Hsq.
    rewrite Forall_cons, <- IH.
    set (s := (x ^ 2)%Q) in *. set (t := total (r_pow v 2)) in *.
    split.
    + intros H. split; [apply Hsq|]; lra.
    + intros [H1 H2]. apply Hsq in H1. lra.
Qed.

Lemma differences_zero (a b : list Q) :
  length a = length b ->
  Forall (fun x => (x == 0)%Q) (zip_with Qminus a b) <-> Forall2 Qeq b a.
Proof.
  revert b. induction a as [|x a IH]; intros [|y b] Hlen; try done.
  simpl in Hlen. injection Hlen as Hlen. simpl.
  rewrite Forall_cons, Forall2_cons, (IH b Hlen).
  split; intros [H1 H2]; split; try done; lra.
Qed.

Lemma mean_nonempty (v : list Q) :
  v <> [] ->
  r_mean v = Some (total v / inject_Z (Z.of_nat (length v)))%Q.
Proof. by destruct v. Qed.

Lemma quotient_sign (t : Q) (n : nat) :
  (0 < n)%nat ->
  ((0 <= t -> 0 <= t / inject_Z (Z.of_nat n))
   /\ (t / inject_Z (Z.of_nat n) == 0 <-> t == 0))%Q.
Proof.
  intros Hn.
  assert (0 < inject_Z (Z.of_nat n))%Q as Hpos.
  { change 0%Q with (inject_Z 0). rewrite <- Zlt_Qlt. lia. }
  split.
  - intros Ht. apply Qle_shift_div_l; [done | lra].
  - split; intros H.
    + assert (t == t / inject_Z (Z.of_nat n) * inject_Z (Z.of_nat n))%Q
        as -> by (field; lra).
      rewrite H. lra.
    + rewrite H. field. lra.
Qed.

(** The mean squared error of as many predictions as there are
    observations. *)
Lemma mse_of_same_length (y predictions : list Q) :
  length y = length predictions -> y <> [] ->
  exists m,
    mse y predictions = Some m
    /\ (0 <= m)%Q
    /\ ((m == 0)%Q <-> Forall2 Qeq predictions y).
Proof.
  intros Hlen Hne. unfold mse, r_sub.
  rewrite (arith_same_length _ _ _ Hlen).
  set (d := zip_with Qminus y predictions).
  assert (length (r_pow d 2) = length y) as Hd.
  { unfold r_pow. rewrite length_fmap. unfold d.
    rewrite length_zip_with. lia. }
  assert (r_pow d 2 <> []) as Hne'.
  { intros E. rewrite E in Hd. destruct y; done. }
  rewrite (mean_nonempty _ Hne'). eexists. split; [reflexivity|].
  destruct (quotient_sign (total (r_pow d 2)) (length (r_pow d 2)))
    as [Hpos Hzero].
  { rewrite Hd. destruct y; [done | simpl; lia]. }
  split.
  - apply Hpos, total_squares_nonneg.
  - rewrite Hzero, total_squares_zero. by apply differences_zero.
Qed.

End Vectors.

(** ** The recipes *)

(** A table of the shape of [longley], column by column. *)
Lemma longley_shaped_inv (d : Recipes.data_frame) :
  Recipes.longley_shaped d = true ->
  exists c1 c2 c3 c4 c5 c6 y,
    d = [c1; c2; c3; c4; c5; c6; ("Employed", y)]
    /\ Forall (fun c => String.eqb (fst c) "Employed" = false)
              [c1; c2; c3; c4; c5; c6]
    /\ Forall (fun c => length (snd c) = 16%nat)
              [c1; c2; c3; c4; c5; c6; ("Employed", y)].
Proof.
  unfold Recipes.longley_shaped.
  intros [[[Hlen Hrows]%andb_true_iff Hnames]%andb_true_iff
          Hlast]%andb_true_iff.
  apply Nat.eqb_eq in Hlen.
  do 8 (destruct d as [|? d]; try discriminate Hlen).
  simpl in Hlast, Hnames.
  match type of Hlast with
  | String.eqb (fst ?c) _ = true => destruct c as [n7 y]
  end.
  simpl in Hlast. apply String.eqb_eq in Hlast. subst n7.
  eexists _, _, _, _, _, _, _. split; [reflexivity|]. split.
  - rewrite !andb_true_iff in Hnames. rewrite !negb_true_iff in Hnames.
    repeat constructor; tauto.
  - apply List.Forall_forall. intros c Hc. apply Nat.eqb_eq.
    by apply (proj1 (List.forallb_forall _ _) Hrows).
Qed.

Section RecipeRuns.
Import Recipes.
Variable P : packages.
Hypothesis Hshape : longley_shaped (longley P) = true.
Hypothesis Hpred : predicts_per_row P.

(** On a table of that shape, [longley[,1:6]] is its first six columns,
    which are the predictors of [Employed ~ .], and [longley[,7]] is
    [longley$Employed], the response of that formula. *)
Lemma longley_columns :
  columns (longley P) (colon 1 6) = Some (take 6 (longley P))
  /\ column (longley P) 7 = Some (dollar (longley P) "Employed")
  /\ predictors_of (TildeDot "Employed") (longley P) = take 6 (longley P)
  /\ nrow (take 6 (longley P)) = 16%nat
  /\ length (dollar (longley P) "Employed") = 16%nat
  /\ nrow (longley P) = 16%nat.
Proof.
  destruct (longley_shaped_inv _ Hshape)
    as (c1 & c2 & c3 & c4 & c5 & c6 & y & E & Hn & Hr).
  rewrite E.
  rewrite !Forall_cons in Hn. destruct Hn as (N1&N2&N3&N4&N5&N6&_).
  rewrite !Forall_cons in Hr. destruct Hr as (R1&_&_&_&_&_&R7&_).
  destruct c1, c2, c3, c4, c5, c6; simpl in *.
  rewrite N1, N2, N3, N4, N5, N6. simpl. done.
Qed.

Lemma longley_has_employed : has_column (longley P) "Employed" = true.
Proof.
  destruct (longley_shaped_inv _ Hshape)
    as (c1 & c2 & c3 & c4 & c5 & c6 & y & E & _).
  rewrite E. unfold has_column. simpl.
  by rewrite !orb_true_r.
Qed.

Lemma mse_defined (m : model P) :
  exists v,
    mse (dollar (longley P) "Employed") (predict P m (take 6 (longley P)))
    = Some v.
Proof.
  destruct longley_columns as (_ & _ & _ & HnX & Hy & _).
  destruct (mse_of_same_length (dollar (longley P) "Employed")
              (predict P m (take 6 (longley P)))) as (v & Hv & _).
  - by rewrite Hpred, HnX.
  - intros E. by rewrite E in Hy.
  - by exists v.
Qed.

(** Evaluation of a recipe, leaving the package functions and the
    operations on the table folded. *)
Ltac evaluate :=
  with_strategy transparent [gmap_empty]
    cbv -[columns colon column dollar has_column r_mean r_sub r_pow take
          longley rpart bagging randomForest cubist summary predict].

Ltac run_recipe Hv :=
  destruct longley_columns as (HX & Hy & _);
  pose proof longley_has_employed as Hc;
  repeat match goal with x := _ |- _ => subst x end;
  unfold mse in Hv;
  evaluate; rewrite ?Hc, ?HX, ?Hy;
  evaluate; rewrite ?HX, ?Hy;
  evaluate; rewrite ?HX, ?Hy;
  evaluate; rewrite ?Hv;
  evaluate; reflexivity.

Lemma cart_recipe_steps :
  let m := rpart P (TildeDot "Employed") (longley P) (RpartControl 5) in
  let X := take 6 (longley P) in
  exists v,
    mse (dollar (longley P) "Employed") (predict P m X) = Some v
    /\ steps_of (cart_recipe P)
       = Some (recipe_steps "rpart" (cart_fit P) m X v).
Proof.
  intros m X. destruct (mse_defined m) as [v Hv].
  exists v. split; [done|]. run_recipe Hv.
Qed.

Lemma bagging_recipe_steps :
  let m := bagging P (TildeDot "Employed") (longley P) (RpartControl 5) in
  let X := take 6 (longley P) in
  exists v,
    mse (dollar (longley P) "Employed") (predict P m X) = Some v
    /\ steps_of (bagging_recipe P)
       = Some (recipe_steps "ipred" (bagging_fit P) m X v).
Proof.
  intros m X. destruct (mse_defined m) as [v Hv].
  exists v. split; [done|]. run_recipe Hv.
Qed.

Lemma random_forest_recipe_steps :
  let m := randomForest P (TildeDot "Employed") (longley P) in
  let X := take 6 (longley P) in
  exists v,
    mse (dollar (longley P) "Employed") (predict P m X) = Some v
    /\ steps_of (random_forest_recipe P)
       = Some (recipe_steps "randomForest" (random_forest_fit P) m X v).
Proof.
  intros m X. destruct (mse_defined m) as [v Hv].
  exists v. split; [done|]. run_recipe Hv.
Qed.

Lemma cubist_recipe_steps :
  let X := take 6 (longley P) in
  let y := dollar (longley P) "Employed" in
  let m := cubist P X y in
  exists v,
    mse y (predict P m X) = Some v
    /\ steps_of (cubist_recipe P)
       = Some (recipe_steps "Cubist" (cubist_fit P X y) m X v).
Proof.
  intros X y m. destruct (mse_defined m) as [v Hv].
  exists v. split; [done|]. run_recipe Hv.
Qed.

End RecipeRuns.

(** The stand-in packages meet both assumptions. *)
Lemma mean_model_shaped :
  Recipes.longley_shaped (Recipes.longley Recipes.mean_model) = true.
Proof. reflexivity. Qed.

Lemma mean_model_predicts_per_row :
  Recipes.predicts_per_row Recipes.mean_model.
Proof. intros m d. apply length_replicate. Qed.

(** * The claims *)



(** C6, as stated, fails on the CART recipe: run on the [longley] table
    with the stand-in packages, its console output is not made of numbers
    only, because [summary(fit)] on a line of its own shows the summary
    of the fitted model before the mean squared error is printed. *)
Lemma cart_recipe_shows_summary :
  ~ Recipes.shows_only_numbers (Recipes.cart_recipe Recipes.mean_model).
Proof.
  intros (tr & Hrun & Hout).
  destruct (cart_recipe_steps Recipes.mean_model mean_model_shaped
              mean_model_predicts_per_row) as (v & _ & Hsteps).
  rewrite Hsteps in Hrun. injection Hrun as <-.
  discriminate Hout.
Qed.

(** C6, amended.  Each of the three distribution cells prints exactly
    two floats and nothing else: the value [ppf] returned, then the
    probability [cdf] returned for it.  Each of the four recipes shows
    exactly two things: the summary of the model its fitting call
    returned, then one number, the mean squared error of that model's
    predictions on [longley[,1:6]] against [longley$Employed]. *)
Theorem scripts_output :
  (forall L : Notebook.scipy_stats,
     let p := Notebook.PyFloat 0.95 in
     let df := Notebook.PyInt 10 in
     let vn := Notebook.PyFloat (Notebook.norm_ppf L p) in
     let vt := Notebook.PyFloat (Notebook.t_ppf L p df) in
     let vc := Notebook.PyFloat (Notebook.chi2_ppf L p df) in
     (Notebook.printed <$> steps_of (Notebook.gaussian_cell L)
      = Some [vn; Notebook.PyFloat (Notebook.norm_cdf L vn)]
      /\ Notebook.printed <$> steps_of (Notebook.student_t_cell L)
         = Some [vt; Notebook.PyFloat (Notebook.t_cdf L vt df)]
      /\ Notebook.printed <$> steps_of (Notebook.chi_squared_cell L)
         = Some [vc; Notebook.PyFloat (Notebook.chi2_cdf L vc df)])
     /\ (Notebook.prints_only_numbers (Notebook.gaussian_cell L)
         /\ Notebook.prints_only_numbers (Notebook.student_t_cell L)
         /\ Notebook.prints_only_numbers (Notebook.chi_squared_cell L)))
  /\ (forall P : Recipes.packages,
        Recipes.longley_shaped (Recipes.longley P) = true ->
        Recipes.predicts_per_row P ->
        let X := take 6 (Recipes.longley P) in
        let y := Recipes.dollar (Recipes.longley P) "Employed" in
        let f := Recipes.TildeDot "Employed" in
        let ctl := Recipes.RpartControl 5 in
        let m1 := Recipes.rpart P f (Recipes.longley P) ctl in
        let m2 := Recipes.bagging P f (Recipes.longley P) ctl in
        let m3 := Recipes.randomForest P f (Recipes.longley P) in
        let m4 := Recipes.cubist P X y in
        (exists v,
           Recipes.mse y (Recipes.predict P m1 X) = Some v
           /\ Recipes.shown <$> steps_of (Recipes.cart_recipe P)
              = Some [ Recipes.RSummary (Recipes.summary P m1);
                       Recipes.RNum [v] ])
        /\ (exists v,
              Recipes.mse y (Recipes.predict P m2 X) = Some v
              /\ Recipes.shown <$> steps_of (Recipes.bagging_recipe P)
                 = Some [ Recipes.RSummary (Recipes.summary P m2);
                          Recipes.RNum [v] ])
        /\ (exists v,
              Recipes.mse y (Recipes.predict P m3 X) = Some v
              /\ Recipes.shown
                   <$> steps_of (Recipes.random_forest_recipe P)
                 = Some [ Recipes.RSummary (Recipes.summary P m3);
                          Recipes.RNum [v] ])
        /\ (exists v,
              Recipes.mse y (Recipes.predict P m4 X) = Some v
              /\ Recipes.shown <$> steps_of (Recipes.cubist_recipe P)
                 = Some [ Recipes.RSummary (Recipes.summary P m4);
                          Recipes.RNum [v] ])).
Proof.
  split.
  - intros L. repeat split; by eexists.
  - intros P Hshape Hpred X y f ctl m1 m2 m3 m4.
    destruct (cart_recipe_steps P Hshape Hpred) as (v1 & Hv1 & H1).
    destruct (bagging_recipe_steps P Hshape Hpred) as (v2 & Hv2 & H2).
    destruct (random_forest_recipe_steps P Hshape Hpred)
      as (v3 & Hv3 & H3).
    destruct (cubist_recipe_steps P Hshape Hpred) as (v4 & Hv4 & H4).
    split; [|split; [|split]].
    + exists v1. split; [exact Hv1|]. by rewrite H1.
    + exists v2. split; [exact Hv2|]. by rewrite H2.
    + exists v3. split; [exact Hv3|]. by rewrite H3.
    + exists v4. split; [exact Hv4|]. by rewrite H4.
Qed.

Lemma scripts_output_witness :
  let P := Recipes.mean_model in
  let X := take 6 (Recipes.longley P) in
  let y := Recipes.dollar (Recipes.longley P) "Employed" in
  let m1 := Recipes.rpart P (Recipes.TildeDot "Employed")
              (Recipes.longley P) (Recipes.RpartControl 5) in
  Recipes.longley_shaped (Recipes.longley P) = true
  /\ Recipes.predicts_per_row P
  /\ exists v,
       Recipes.mse y (Recipes.predict P m1 X) = Some v
       /\ Recipes.shown <$> steps_of (Recipes.cart_recipe P)
          = Some [ Recipes.RSummary (Recipes.summary P m1);
                   Recipes.RNum [v] ].
Proof.
  intros P X y m1.
  split; [reflexivity|].
  split; [intros m d; apply length_replicate|].
  apply (proj2 scripts_output Recipes.mean_model).
  - reflexivity.
  - intros m d. apply length_replicate.
Defined.

(** C7, as stated, fails on the CART recipe: its package calls are not
    a fitting call followed by a prediction call only, because between
    the two it calls [summary] on the fitted model. *)
Lemma cart_recipe_calls_summary :
  ~ Recipes.fits_then_predicts (Recipes.cart_recipe Recipes.mean_model).
Proof.
  intros (tr & fit_call & m & X & Hrun & _ & Hcalls).
  destruct (cart_recipe_steps Recipes.mean_model mean_model_shaped
              mean_model_predicts_per_row) as (v & _ & Hsteps).
  rewrite Hsteps in Hrun. injection Hrun as <-.
  discriminate Hcalls.
Qed.

(** C7, amended.  Every script is a straight line: whatever the library
    answers, it executes the same steps in the same order, those of its
    source lines.  A distribution cell sets the probability (and the
    degrees of freedom), calls [ppf] on it and then [cdf] on the value
    [ppf] returned, printing each result; these are its only library
    calls.  A recipe loads [longley], calls its fitting function, calls
    [summary] on the fitted model, calls [predict] with the fitted model,
    then computes the mean squared error and prints it; these are its
    only package calls. *)
Theorem scripts_are_straight_line :
  (forall L : Notebook.scipy_stats,
     let p := Notebook.PyFloat 0.95 in
     let df := Notebook.PyInt 10 in
     let vn := Notebook.PyFloat (Notebook.norm_ppf L p) in
     let vt := Notebook.PyFloat (Notebook.t_ppf L p df) in
     let vc := Notebook.PyFloat (Notebook.chi2_ppf L p df) in
     (Notebook.kinds_of (Notebook.gaussian_cell L)
      = Some Notebook.gaussian_kinds
      /\ Notebook.calls <$> steps_of (Notebook.gaussian_cell L)
         = Some [ ("norm.ppf", [p], vn);
                  ("norm.cdf", [vn],
                   Notebook.PyFloat (Notebook.norm_cdf L vn)) ])
     /\ (Notebook.kinds_of (Notebook.student_t_cell L)
         = Some (Notebook.df_cell_kinds "t")
         /\ Notebook.calls <$> steps_of (Notebook.student_t_cell L)
            = Some [ ("t.ppf", [p; df], vt);
                     ("t.cdf", [vt; df],
                      Notebook.PyFloat (Notebook.t_cdf L vt df)) ])
     /\ (Notebook.kinds_of (Notebook.chi_squared_cell L)
         = Some (Notebook.df_cell_kinds "chi2")
         /\ Notebook.calls <$> steps_of (Notebook.chi_squared_cell L)
            = Some [ ("chi2.ppf", [p; df], vc);
                     ("chi2.cdf", [vc; df],
                      Notebook.PyFloat (Notebook.chi2_cdf L vc df)) ]))
  /\ (forall P : Recipes.packages,
        Recipes.longley_shaped (Recipes.longley P) = true ->
        Recipes.predicts_per_row P ->
        let X := take 6 (Recipes.longley P) in
        let y := Recipes.dollar (Recipes.longley P) "Employed" in
        let f := Recipes.TildeDot "Employed" in
        let ctl := Recipes.RpartControl 5 in
        (Recipes.kinds_of (Recipes.cart_recipe P)
         = Some (Recipes.recipe_kinds "rpart" "rpart")
         /\ Recipes.calls <$> steps_of (Recipes.cart_recipe P)
            = Some (Recipes.recipe_calls (Recipes.cart_fit P)
                      (Recipes.rpart P f (Recipes.longley P) ctl) X))
        /\ (Recipes.kinds_of (Recipes.bagging_recipe P)
            = Some (Recipes.recipe_kinds "ipred" "bagging")
            /\ Recipes.calls <$> steps_of (Recipes.bagging_recipe P)
               = Some (Recipes.recipe_calls (Recipes.bagging_fit P)
                         (Recipes.bagging P f (Recipes.longley P) ctl) X))
        /\ (Recipes.kinds_of (Recipes.random_forest_recipe P)
            = Some (Recipes.recipe_kinds "randomForest" "randomForest")
            /\ Recipes.calls <$> steps_of (Recipes.random_forest_recipe P)
               = Some (Recipes.recipe_calls (Recipes.random_forest_fit P)
                         (Recipes.randomForest P f (Recipes.longley P)) X))
        /\ (Recipes.kinds_of (Recipes.cubist_recipe P)
            = Some (Recipes.recipe_kinds "Cubist" "cubist")
            /\ Recipes.calls <$> steps_of (Recipes.cubist_recipe P)
               = Some (Recipes.recipe_calls (Recipes.cubist_fit P X y)
                         (Recipes.cubist P X y) X))).
Proof.
  split.
  - intros L. repeat split.
  - intros P Hshape Hpred X y f ctl.
    destruct (cart_recipe_steps P Hshape Hpred) as (v1 & _ & H1).
    destruct (bagging_recipe_steps P Hshape Hpred) as (v2 & _ & H2).
    destruct (random_forest_recipe_steps P Hshape Hpred) as (v3 & _ & H3).
    destruct (cubist_recipe_steps P Hshape Hpred) as (v4 & _ & H4).
    unfold Recipes.kinds_of. rewrite H1, H2, H3, H4.
    repeat split.
Qed.

Lemma scripts_are_straight_line_witness :
  let P := Recipes.mean_model in
  Recipes.longley_shaped (Recipes.longley P) = true
  /\ Recipes.predicts_per_row P
  /\ Recipes.kinds_of (Recipes.cart_recipe P)
     = Some (Recipes.recipe_kinds "rpart" "rpart").
Proof.
  intros P.
  split; [reflexivity|].
  split; [intros m d; apply length_replicate|].
  apply (proj2 scripts_are_straight_line Recipes.mean_model).
  - reflexivity.
  - intros m d. apply length_replicate.
Defined.

(** C8.  No script checks its inputs.  Whatever float is bound to [p]
    and whatever int to [df], inside [0, 1] or not, positive or not, the
    distribution scripts hand them to [ppf] as they are, run to their
    last statement and execute the same kinds of steps as with 0.95 and
    10; no script has a branch that raises.  The recipes likewise run to
    their last statement for every behaviour of the packages. *)
Theorem inputs_are_not_validated :
  (forall (L : Notebook.scipy_stats) (p0 : Q) (df0 : Z),
     let p := Notebook.PyFloat p0 in
     let df := Notebook.PyInt df0 in
     let vn := Notebook.PyFloat (Notebook.norm_ppf L p) in
     let vt := Notebook.PyFloat (Notebook.t_ppf L p df) in
     let vc := Notebook.PyFloat (Notebook.chi2_ppf L p df) in
     (Notebook.kinds_of (Notebook.gaussian_script L p0)
      = Some Notebook.gaussian_kinds
      /\ Notebook.calls <$> steps_of (Notebook.gaussian_script L p0)
         = Some [ ("norm.ppf", [p], vn);
                  ("norm.cdf", [vn],
                   Notebook.PyFloat (Notebook.norm_cdf L vn)) ])
     /\ (Notebook.kinds_of (Notebook.student_t_script L p0 df0)
         = Some (Notebook.df_cell_kinds "t")
         /\ Notebook.calls <$> steps_of (Notebook.student_t_script L p0 df0)
            = Some [ ("t.ppf", [p; df], vt);
                     ("t.cdf", [vt; df],
                      Notebook.PyFloat (Notebook.t_cdf L vt df)) ])
     /\ (Notebook.kinds_of (Notebook.chi_squared_script L p0 df0)
         = Some (Notebook.df_cell_kinds "chi2")
         /\ Notebook.calls
              <$> steps_of (Notebook.chi_squared_script L p0 df0)
            = Some [ ("chi2.ppf", [p; df], vc);
                     ("chi2.cdf", [vc; df],
                      Notebook.PyFloat (Notebook.chi2_cdf L vc df)) ]))
  /\ (forall P : Recipes.packages,
        Recipes.longley_shaped (Recipes.longley P) = true ->
        Recipes.predicts_per_row P ->
        is_Some (steps_of (Recipes.cart_recipe P))
        /\ is_Some (steps_of (Recipes.bagging_recipe P))
        /\ is_Some (steps_of (Recipes.random_forest_recipe P))
        /\ is_Some (steps_of (Recipes.cubist_recipe P))).
Proof.
  split.
  - intros L p0 df0. repeat split.
  - intros P Hshape Hpred.
    destruct (cart_recipe_steps P Hshape Hpred) as (v1 & _ & ->).
    destruct (bagging_recipe_steps P Hshape Hpred) as (v2 & _ & ->).
    destruct (random_forest_recipe_steps P Hshape Hpred) as (v3 & _ & ->).
    destruct (cubist_recipe_steps P Hshape Hpred) as (v4 & _ & ->).
    repeat split; by eexists.
Qed.

Lemma inputs_are_not_validated_witness :
  let P := Recipes.mean_model in
  Recipes.longley_shaped (Recipes.longley P) = true
  /\ Recipes.predicts_per_row P
  /\ is_Some (steps_of (Recipes.cart_recipe P)).
Proof.
  intros P.
  split; [reflexivity|].
  split; [intros m d; apply length_replicate|].
  apply (proj2 inputs_are_not_validated Recipes.mean_model).
  - reflexivity.
  - intros m d. apply length_replicate.
Defined.

(** A probability of 2 and -3 degrees of freedom reach [t.ppf] as
    written. *)
Example out_of_domain_inputs_reach_the_library :
  Notebook.calls
    <$> steps_of (Notebook.student_t_script Notebook.recorded_run 2 (-3))
  = Some [ ("t.ppf", [Notebook.PyFloat 2; Notebook.PyInt (-3)],
            Notebook.PyFloat 1.8124611228107335);
           ("t.cdf", [Notebook.PyFloat 1.8124611228107335;
                      Notebook.PyInt (-3)],
            Notebook.PyFloat 0.949999999999923) ].
Proof. reflexivity. Qed.

(** C9.  Provided the three cumulative functions answer within [0, 1],
    every probability the cells use lies in [0, 1]: the 0.95 first bound
    to [p] and handed to [ppf], and the value [p] is rebound to after the
    [cdf] call.  Every degrees-of-freedom parameter they use, bound to
    [df] or handed to the library, is the positive int 10. *)
Theorem probabilities_and_df_within_domain (L : Notebook.scipy_stats) :
  Notebook.cdf_within_unit L ->
  (Notebook.within_domain (Notebook.gaussian_cell L)
   /\ Notebook.within_domain (Notebook.student_t_cell L)
   /\ Notebook.within_domain (Notebook.chi_squared_cell L))
  /\ (Notebook.degrees_of_freedom
        <$> steps_of (Notebook.student_t_cell L)
      = Some (replicate 3 (Notebook.PyInt 10))
      /\ Notebook.degrees_of_freedom
           <$> steps_of (Notebook.chi_squared_cell L)
         = Some (replicate 3 (Notebook.PyInt 10))).
Proof.
  intros (Hn & Ht & Hc).
  split; [|by split].
  repeat split.
  - exists (Notebook.gaussian_steps L 0.95).
    split; [reflexivity|]. split; [|reflexivity].
    simpl. by rewrite Hn.
  - exists (Notebook.student_t_steps L 0.95 10).
    split; [reflexivity|]. split; [|reflexivity].
    simpl. by rewrite Ht.
  - exists (Notebook.chi_squared_steps L 0.95 10).
    split; [reflexivity|]. split; [|reflexivity].
    simpl. by rewrite Hc.
Qed.

Lemma probabilities_and_df_within_domain_witness :
  let L := Notebook.recorded_run in
  Notebook.cdf_within_unit L
  /\ (Notebook.within_domain (Notebook.gaussian_cell L)
      /\ Notebook.within_domain (Notebook.student_t_cell L)
      /\ Notebook.within_domain (Notebook.chi_squared_cell L))
  /\ (Notebook.degrees_of_freedom
        <$> steps_of (Notebook.student_t_cell L)
      = Some (replicate 3 (Notebook.PyInt 10))
      /\ Notebook.degrees_of_freedom
           <$> steps_of (Notebook.chi_squared_cell L)
         = Some (replicate 3 (Notebook.PyInt 10))).
Proof.
  intros L.
  split; [repeat split|].
  apply (probabilities_and_df_within_domain Notebook.recorded_run).
  repeat split.
Defined.

(** A run with the expected steps is a run in sample, once the fitting
    call is known to train on the first six columns and on [Employed]. *)
Lemma in_sample_of_steps (P : Recipes.packages)
    (c : script (Recipes.rval P) (Recipes.rstep P) unit)
    (package : string) (fit_call : Recipes.rcall P)
    (m : Recipes.model P) (v : Q) :
  let X := take 6 (Recipes.longley P) in
  let y := Recipes.dollar (Recipes.longley P) "Employed" in
  steps_of c = Some (Recipes.recipe_steps package fit_call m X v) ->
  Recipes.fitted fit_call = Some m ->
  Recipes.training_data fit_call = Some (X, y) ->
  Recipes.mse y (Recipes.predict P m X) = Some v ->
  Recipes.in_sample c fit_call.
Proof.
  intros X y Hsteps Hm Hdata Hv.
  exists (Recipes.recipe_steps package fit_call m X v), m, v.
  repeat split; done.
Qed.

(** C10.  The error every recipe prints is training error.  The fitting
    call is made on the whole [longley] table and trains on its first six
    columns as predictors and on its seventh column, [Employed], as
    target; the one prediction call is made with that fitted model on
    [longley[,1:6]], the same six columns with all their rows; and the
    number printed is the mean squared error of those predictions against
    [longley$Employed], the training target.  No other data reaches the
    packages. *)
Theorem recipes_measure_training_error (P : Recipes.packages) :
  Recipes.longley_shaped (Recipes.longley P) = true ->
  Recipes.predicts_per_row P ->
  let X := take 6 (Recipes.longley P) in
  let y := Recipes.dollar (Recipes.longley P) "Employed" in
  (Recipes.columns (Recipes.longley P) (Recipes.colon 1 6) = Some X
   /\ Recipes.column (Recipes.longley P) 7 = Some y
   /\ Recipes.nrow X = Recipes.nrow (Recipes.longley P))
  /\ Recipes.in_sample (Recipes.cart_recipe P) (Recipes.cart_fit P)
  /\ Recipes.in_sample (Recipes.bagging_recipe P) (Recipes.bagging_fit P)
  /\ Recipes.in_sample (Recipes.random_forest_recipe P)
       (Recipes.random_forest_fit P)
  /\ Recipes.in_sample (Recipes.cubist_recipe P)
       (Recipes.cubist_fit P X y).
Proof.
  intros Hshape Hpred X y.
  destruct (longley_columns P Hshape) as (HX & Hy & Hf & HnX & _ & Hn).
  split.
  { repeat split; [exact HX | exact Hy |].
    unfold X. by rewrite HnX, Hn. }
  destruct (cart_recipe_steps P Hshape Hpred) as (v1 & Hv1 & H1).
  destruct (bagging_recipe_steps P Hshape Hpred) as (v2 & Hv2 & H2).
  destruct (random_forest_recipe_steps P Hshape Hpred) as (v3 & Hv3 & H3).
  destruct (cubist_recipe_steps P Hshape Hpred) as (v4 & Hv4 & H4).
  repeat split.
  - eapply in_sample_of_steps; [exact H1 | reflexivity | | exact Hv1].
    unfold Recipes.cart_fit, Recipes.training_data. by rewrite Hf.
  - eapply in_sample_of_steps; [exact H2 | reflexivity | | exact Hv2].
    unfold Recipes.bagging_fit, Recipes.training_data. by rewrite Hf.
  - eapply in_sample_of_steps; [exact H3 | reflexivity | | exact Hv3].
    unfold Recipes.random_forest_fit, Recipes.training_data. by rewrite Hf.
  - eapply in_sample_of_steps; [exact H4 | reflexivity | | exact Hv4].
    reflexivity.
Qed.

Lemma recipes_measure_training_error_witness :
  let P := Recipes.mean_model in
  Recipes.longley_shaped (Recipes.longley P) = true
  /\ Recipes.predicts_per_row P
  /\ Recipes.in_sample (Recipes.cart_recipe P) (Recipes.cart_fit P).
Proof.
  intros P.
  split; [reflexivity|].
  split; [intros m d; apply length_replicate|].
  apply (recipes_measure_training_error Recipes.mean_model).
  - reflexivity.
  - intros m d. apply length_replicate.
Defined.

(** * Sessions and vectors of any length *)

(** ** The notebook, from any namespace *)

Section NotebookSessions.
Import Notebook.
Variable L : scipy_stats.

Ltac open_cell :=
  unfold gaussian_cell, student_t_cell, chi_squared_cell,
    gaussian_script, student_t_script, chi_squared_script,
    probability_cell, import_from, assign, print, call, sub, lit,
    var, record, bind_name, raise, mbind, mret, script_bind, script_ret,
    then_script, unit_script;
  cbn [dist_of_name String.eqb Ascii.eqb Bool.eqb store trace].

Ltac look_up :=
  repeat (first [ rewrite lookup_insert_eq
                | rewrite lookup_insert_ne by done ];
          cbn [store trace eval_args method_call dist_name
               String.eqb Ascii.eqb Bool.eqb String.append];
          unfold var, mbind, mret, script_bind, script_ret,
            then_script, unit_script, record;
          cbn [store trace]).

(** One cell of a session: it completes, appends its own steps and
    touches no name but the object it imports and [p], [value], [df]. *)
Lemma run_cell_from_any_state (c : cell) (s : state pyval pystep) :
  exists σ',
    run_cell L c s = Ok tt (State σ' (trace s ++ cell_steps L c))
    /\ forall x, x ∉ cell_names -> σ' !! x = store s !! x.
Proof.
  destruct s as [σ tr].
  destruct c; unfold run_cell, cell_steps; eexists; (split; [
    open_cell; look_up; rewrite <- !app_assoc; reflexivity |]);
  intros x Hx; unfold cell_names in Hx;
  rewrite !not_elem_of_cons in Hx;
  destruct Hx as (? & ? & ? & ? & ? & ? & _);
  cbn [store]; by rewrite !lookup_insert_ne.
Qed.

Lemma run_cells_from_any_state (cs : list cell) (s : state pyval pystep) :
  exists s',
    run_cells L cs s = Ok tt s'
    /\ trace s' = trace s ++ concat (map (cell_steps L) cs)
    /\ forall x, x ∉ cell_names -> store s' !! x = store s !! x.
Proof.
  revert s. induction cs as [|c cs IH]; intros s.
  - exists s. simpl. by rewrite app_nil_r.
  - destruct (run_cell_from_any_state c s) as (σ1 & Hc & Hσ1).
    destruct (IH (State σ1 (trace s ++ cell_steps L c)))
      as (s' & Hcs & Htr & Hσ').
    exists s'. split; [|split].
    + change (run_cells L (c :: cs) s)
        with (then_script (run_cell L c) (fun _ => run_cells L cs) s).
      unfold then_script. by rewrite Hc.
    + rewrite Htr. simpl. by rewrite app_assoc.
    + intros x Hx. rewrite (Hσ' x Hx). by apply Hσ1.
Qed.

Lemma probability_cell_unbound
    (minus : pyval -> pyval -> option pyval) (s : state pyval pystep) :
  store s !! "alpha" = None ->
  probability_cell minus s = Raise (UnboundName "alpha").
Proof.
  intros H. destruct s as [σ tr]. simpl in H.
  open_cell. by rewrite H.
Qed.

End NotebookSessions.

(** ** The accuracy line, on vectors of any length *)

Section Accuracy.
Import Recipes.

Lemma arith_empty_iff (op : Q -> Q -> Q) (a b : list Q) :
  arith op a b = [] <-> a = [] \/ b = [].
Proof.
  destruct a as [|x a], b as [|y b]; simpl; try tauto.
  split; [discriminate | intros [H|H]; discriminate H].
Qed.

Lemma length_arith (op : Q -> Q -> Q) (a b : list Q) :
  a <> [] -> b <> [] ->
  length (arith op a b) = Nat.max (length a) (length b).
Proof.
  intros Ha Hb. unfold arith.
  destruct a as [|x a], b as [|y b]; try done.
  by rewrite length_map, length_seq.
Qed.

Lemma r_mean_none_iff (v : list Q) : r_mean v = None <-> v = [].
Proof. by destruct v. Qed.

Lemma mse_none_iff (y predictions : list Q) :
  mse y predictions = None <-> y = [] \/ predictions = [].
Proof.
  unfold mse, r_sub. rewrite r_mean_none_iff, <- arith_empty_iff.
  unfold r_pow. split.
  - apply fmap_nil_inv.
  - by intros ->.
Qed.

Lemma mse_some_nonneg (y predictions : list Q) (m : Q) :
  mse y predictions = Some m -> (0 <= m)%Q.
Proof.
  unfold mse. set (d := r_sub y predictions).
  pose proof (total_squares_nonneg d) as Hsum.
  destruct (r_pow d 2) as [|z zs]; [discriminate|].
  intros [= <-].
  apply (quotient_sign (total (z :: zs)) (length (z :: zs))).
  - simpl. lia.
  - exact Hsum.
Qed.

Lemma total_fmap_ext (f g : nat -> Q) (l : list nat) :
  (forall i, (f i == g i)%Q) ->
  (total (map f l) == total (map g l))%Q.
Proof.
  intros H. induction l as [|i l IH]; simpl; [reflexivity|].
  fold (total (map f l)). fold (total (map g l)).
  by rewrite (H i), IH.
Qed.

(** The squared differences, spelt out position by position. *)
Lemma squares_of_arith (a b : list Q) :
  a <> [] -> b <> [] ->
  r_pow (r_sub a b) 2
  = map (fun i => ((cyclic a i - cyclic b i) ^ 2)%Q)
        (seq 0 (Nat.max (length a) (length b))).
Proof.
  intros Ha Hb. unfold r_pow, r_sub, arith.
  destruct a as [|x a], b as [|y b]; try done.
  by rewrite map_map.
Qed.

Lemma mse_swap (y predictions : list Q) :
  option_Forall2 Qeq (mse y predictions) (mse predictions y).
Proof.
  destruct (decide (y = [])) as [->|Hy].
  { destruct predictions; constructor. }
  destruct (decide (predictions = [])) as [->|Hp].
  { destruct y; constructor. }
  unfold mse.
  rewrite (squares_of_arith _ _ Hy Hp), (squares_of_arith _ _ Hp Hy).
  rewrite (Nat.max_comm (length predictions) (length y)).
  set (n := Nat.max (length y) (length predictions)).
  assert (0 < n)%nat as Hn.
  { unfold n. destruct y; [done | simpl; lia]. }
  destruct n as [|n]; [lia|].
  rewrite !mean_nonempty by (rewrite seq_S; simpl; by destruct (seq _ _)).
  constructor. rewrite !length_map.
  apply Qmult_comp; [|reflexivity].
  apply total_fmap_ext. intros i.
  change ((cyclic y i - cyclic predictions i) ^ 2)%Q
    with ((cyclic y i - cyclic predictions i)
          * (cyclic y i - cyclic predictions i))%Q.
  change ((cyclic predictions i - cyclic y i) ^ 2)%Q
    with ((cyclic predictions i - cyclic y i)
          * (cyclic predictions i - cyclic y i))%Q.
  ring.
Qed.

End Accuracy.

(** ** The recipes, from any workspace *)

Section RecipeSessions.
Import Recipes.
Variable P : packages.

Ltac open_recipe :=
  unfold cart_recipe, bagging_recipe, random_forest_recipe, cubist_recipe,
    library, data, assign, toplevel, print, call_rpart, call_bagging,
    call_randomForest, call_cubist, call_summary, call_predict,
    model_frame, mean, power, minus, field, cols, col, as_frame, as_num,
    as_model, var, record, bind_name, raise,
    mbind, mret, script_bind, script_ret, then_script, unit_script;
  cbn [store trace String.eqb Ascii.eqb Bool.eqb].

Ltac look_up :=
  repeat (first [ rewrite lookup_insert_eq
                | rewrite lookup_insert_ne by done ];
          cbn [store trace]).

Hypothesis Hshape : longley_shaped (longley P) = true.

(** With at least one prediction the error has a value, whatever the
    number of predictions: R recycles the shorter vector. *)
Lemma training_mse_recycled (rc : recipe) :
  predict P (model_of P rc) (take 6 (longley P)) <> [] ->
  mse (dollar (longley P) "Employed")
      (predict P (model_of P rc) (take 6 (longley P)))
  = Some (training_mse P rc).
Proof.
  intros Hne. unfold training_mse.
  destruct (mse _ _) as [v|] eqn:E; [done|].
  apply mse_none_iff in E as [E|E]; [|done].
  destruct (longley_columns P Hshape) as (_ & _ & _ & _ & Hy & _).
  by rewrite E in Hy.
Qed.

Lemma run_recipe_with_predictions (rc : recipe)
    (s : state (rval P) (rstep P)) :
  let X := take 6 (longley P) in
  let m := model_of P rc in
  predict P m X <> [] ->
  run_recipe P rc s
  = Ok tt (State (<["mse" := RNum [training_mse P rc]]>
                    (<["predictions" := RNum (predict P m X)]>
                       (<["fit" := RModel m]>
                          (<["longley" := RFrame (longley P)]> (store s)))))
                 (trace s ++ chunk_steps P rc)).
Proof.
  intros X m Hne. subst X m.
  pose proof (training_mse_recycled rc Hne) as Hv. unfold mse in Hv.
  destruct (longley_columns P Hshape) as (HX & Hy & _).
  pose proof (longley_has_employed P Hshape) as Hc.
  destruct s as [σ tr].
  destruct rc; unfold run_recipe, chunk_steps, model_of in *;
    open_recipe; look_up;
    rewrite ?Hc; cbn [store trace]; look_up;
    rewrite ?HX; cbn [store trace]; look_up;
    rewrite ?Hy; cbn [store trace]; look_up;
    rewrite ?HX; cbn [store trace]; look_up;
    rewrite Hv; cbn [store trace]; look_up;
    rewrite <- !app_assoc; reflexivity.
Qed.

End RecipeSessions.


(** * Further properties *)

(** X2.  The executed cells can be run in one kernel in any order and
    any number of times: from any state, every sequence of cells runs to
    its end, the steps executed are the steps of the cells one after the
    other, each as if the cell ran alone, and no name is touched other
    than the imported [norm], [t], [chi2] and the variables [p], [value]
    and [df]. *)
Theorem cells_run_in_any_order (L : Notebook.scipy_stats)
    (cs : list Notebook.cell) (s : state Notebook.pyval Notebook.pystep) :
  exists s',
    Notebook.run_cells L cs s = Ok tt s'
    /\ trace s' = trace s ++ concat (map (Notebook.cell_steps L) cs)
    /\ forall x, x ∉ Notebook.cell_names -> store s' !! x = store s !! x.
Proof. apply run_cells_from_any_state. Qed.

(** X3.  The formula cell [probability = 1 - alpha] cannot be run in
    this notebook: no cell binds [alpha], so in a kernel where [alpha] is
    not bound it stops with a name error, and it still does after any
    sequence of the executed cells.  The name is read before anything is
    subtracted, so this holds whatever Python's minus does. *)
Theorem probability_cell_needs_alpha (L : Notebook.scipy_stats)
    (minus : Notebook.pyval -> Notebook.pyval -> option Notebook.pyval)
    (cs : list Notebook.cell) (s : state Notebook.pyval Notebook.pystep) :
  store s !! "alpha" = None ->
  exists s',
    Notebook.run_cells L cs s = Ok tt s'
    /\ Notebook.probability_cell minus s' = Raise (UnboundName "alpha").
Proof.
  intros Halpha.
  destruct (run_cells_from_any_state L cs s) as (s' & Hrun & _ & Hstore).
  exists s'. split; [done|].
  apply probability_cell_unbound.
  rewrite Hstore; [done|].
  unfold Notebook.cell_names. rewrite !not_elem_of_cons.
  repeat split; try done. apply not_elem_of_nil.
Qed.

Lemma probability_cell_needs_alpha_witness :
  let L := Notebook.recorded_run in
  let minus := fun _ _ : Notebook.pyval => @None Notebook.pyval in
  let cs := [Notebook.Gaussian; Notebook.StudentT; Notebook.ChiSquared] in
  store (fresh (val := Notebook.pyval) (step := Notebook.pystep))
    !! "alpha" = None
  /\ exists s',
       Notebook.run_cells L cs fresh = Ok tt s'
       /\ Notebook.probability_cell minus s' = Raise (UnboundName "alpha").
Proof.
  intros L minus cs. split; [reflexivity|].
  apply (probability_cell_needs_alpha Notebook.recorded_run
           (fun _ _ => None)
           [Notebook.Gaussian; Notebook.StudentT; Notebook.ChiSquared]
           fresh).
  reflexivity.
Defined.

(** X5.  Whether a distribution script keeps within the domain is decided
    by its literals alone: provided the cumulative functions answer
    within [0, 1], every probability and every degrees-of-freedom
    parameter the script uses is in the domain exactly when the float
    bound to [p] lies in [0, 1] and the int bound to [df] is positive.
    The scripts neither clamp nor replace a value. *)
Theorem domain_decided_by_literals (L : Notebook.scipy_stats)
    (p0 : Q) (df0 : Z) :
  Notebook.cdf_within_unit L ->
  (Notebook.within_domain (Notebook.gaussian_script L p0)
   <-> in_unit_interval p0 = true)
  /\ (Notebook.within_domain (Notebook.student_t_script L p0 df0)
      <-> in_unit_interval p0 = true /\ (0 < df0)%Z)
  /\ (Notebook.within_domain (Notebook.chi_squared_script L p0 df0)
      <-> in_unit_interval p0 = true /\ (0 < df0)%Z).
Proof.
  intros (Hn & Ht & Hc).
  unfold Notebook.within_domain. split; [|split]; split.
  - intros (tr & [= <-] & Hp & _). simpl in Hp.
    by apply andb_true_iff in Hp as [Hp _].
  - intros Hp. eexists. split; [reflexivity|]. simpl.
    by rewrite Hp, Hn.
  - intros (tr & [= <-] & Hp & Hd). simpl in Hp, Hd.
    apply andb_true_iff in Hp as [Hp _].
    apply andb_true_iff in Hd as [Hd _].
    split; [done | by apply Z.ltb_lt].
  - intros [Hp Hd%Z.ltb_lt]. eexists. split; [reflexivity|]. simpl.
    by rewrite Hp, Ht, Hd.
  - intros (tr & [= <-] & Hp & Hd). simpl in Hp, Hd.
    apply andb_true_iff in Hp as [Hp _].
    apply andb_true_iff in Hd as [Hd _].
    split; [done | by apply Z.ltb_lt].
  - intros [Hp Hd%Z.ltb_lt]. eexists. split; [reflexivity|]. simpl.
    by rewrite Hp, Hc, Hd.
Qed.

Lemma domain_decided_by_literals_witness :
  let L := Notebook.recorded_run in
  Notebook.cdf_within_unit L
  /\ (Notebook.within_domain (Notebook.gaussian_script L 2)
      <-> in_unit_interval 2 = true)
  /\ (Notebook.within_domain (Notebook.student_t_script L 2 (-3))
      <-> in_unit_interval 2 = true /\ (0 < -3)%Z)
  /\ (Notebook.within_domain (Notebook.chi_squared_script L 2 (-3))
      <-> in_unit_interval 2 = true /\ (0 < -3)%Z).
Proof.
  intros L. split; [repeat split|].
  apply (domain_decided_by_literals Notebook.recorded_run 2 (-3)).
  repeat split.
Defined.

(** X8.  The accuracy line [mean((observed - predictions)^2)] on vectors
    of any lengths, recycling included: it has no value (R prints NaN)
    exactly when one of the two vectors is empty, and whenever it has a
    value that value is not negative. *)
Theorem mse_defined_and_nonnegative (y predictions : list Q) :
  match Recipes.mse y predictions with
  | Some m => (0 <= m)%Q /\ y <> [] /\ predictions <> []
  | None => y = [] \/ predictions = []
  end.
Proof.
  destruct (Recipes.mse y predictions) as [m|] eqn:E.
  - split; [by apply (mse_some_nonneg y predictions)|].
    split; intros ->.
    + by rewrite (proj2 (mse_none_iff [] predictions)) in E; [|left].
    + by rewrite (proj2 (mse_none_iff y [])) in E; [|right].
  - by apply mse_none_iff.
Qed.

(** X9.  The accuracy line is symmetric: exchanging the observed values
    and the predictions gives the same mean squared error, or no value
    on both sides, whatever the two lengths. *)
Theorem mse_symmetric (y predictions : list Q) :
  option_Forall2 Qeq (Recipes.mse y predictions)
    (Recipes.mse predictions y).
Proof. apply mse_swap. Qed.

(** X10.  The recipes never check how many predictions come back.  On a
    table shaped like [longley], whenever [predict] answers with at least
    one number, be it 16 or not, the recipe runs to its end from any
    workspace and prints an error value: R recycles the shorter of
    [longley$Employed] and [predictions] in the subtraction, so a single
    prediction is compared with every one of the 16 observations. *)
Theorem recipes_accept_any_number_of_predictions (P : Recipes.packages)
    (rc : Recipes.recipe)
    (s : state (Recipes.rval P) (Recipes.rstep P)) :
  Recipes.longley_shaped (Recipes.longley P) = true ->
  let X := take 6 (Recipes.longley P) in
  let y := Recipes.dollar (Recipes.longley P) "Employed" in
  let predictions := Recipes.predict P (Recipes.model_of P rc) X in
  predictions <> [] ->
  (exists s',
     Recipes.run_recipe P rc s = Ok tt s'
     /\ trace s' = trace s ++ Recipes.chunk_steps P rc)
  /\ Recipes.mse y predictions = Some (Recipes.training_mse P rc)
  /\ length (Recipes.r_sub y predictions)
     = Nat.max 16 (length predictions).
Proof.
  intros Hshape X y predictions Hne.
  destruct (longley_columns P Hshape) as (_ & _ & _ & _ & Hy & _).
  split; [|split].
  - eexists. split.
    + by apply run_recipe_with_predictions.
    + reflexivity.
  - by apply training_mse_recycled.
  - unfold Recipes.r_sub. rewrite length_arith; [| |done].
    + unfold y. by rewrite Hy.
    + unfold y. intros E. by rewrite E in Hy.
Qed.

Lemma recipes_accept_any_number_of_predictions_witness :
  let P := Recipes.with_single_prediction Recipes.mean_model in
  let X := take 6 (Recipes.longley P) in
  let y := Recipes.dollar (Recipes.longley P) "Employed" in
  let predictions :=
    Recipes.predict P (Recipes.model_of P Recipes.Cart) X in
  Recipes.longley_shaped (Recipes.longley P) = true
  /\ predictions <> []
  /\ length predictions = 1%nat
  /\ (exists s',
        Recipes.run_recipe P Recipes.Cart fresh = Ok tt s'
        /\ trace s'
           = trace (fresh (val := Recipes.rval P)
                      (step := Recipes.rstep P))
             ++ Recipes.chunk_steps P Recipes.Cart)
  /\ Recipes.mse y predictions
     = Some (Recipes.training_mse P Recipes.Cart)
  /\ length (Recipes.r_sub y predictions)
     = Nat.max 16 (length predictions).
Proof.
  intros P X y predictions.
  split; [reflexivity|]. split; [discriminate|]. split; [reflexivity|].
  apply (recipes_accept_any_number_of_predictions
           (Recipes.with_single_prediction Recipes.mean_model)
           Recipes.Cart fresh).
  - reflexivity.
  - discriminate.
Defined.
